(** * flypy: the [Drone] flight model of [drone.py]

    A shallow embedding of the class [Drone] and of the part of the Python
    run time its methods rely on, followed by the properties the
    specification states about it.

    Conventions of the embedding.
    - Python numbers ([int] and [float] alike) are real numbers: [R].  Every
      statement below is about the exact arithmetic the source writes, not
      about the rounding of binary64.
    - A [Drone] instance is its attribute dictionary, a finite map from
      attribute names to values.
    - A method is a computation in [M]: it reads and writes the instance and
      either returns a value or raises; what was written before an exception
      stays written.
    - The names a method reads from the module namespace are looked up in
      [G], the list of names bound at module level.  [module_globals] is the
      namespace [drone.py] builds with its two [import] lines. *)

From Stdlib Require Import Reals Lra String List.
From stdpp Require Import base gmap strings.
Import ListNotations.

Local Open Scope string_scope.
Local Open Scope R_scope.

(** ** Values *)

(** Modelled from the spec: the class [Vector] of the module [vector], which
    [drone.py] imports and which is not part of the sources. Section 3 of the
    specification gives it as a 3-component numeric tuple [(x, y, z)], built
    from three components or zero by default, with component-wise addition
    and subtraction and multiplication and division by a scalar; it is an
    immutable value, so [v += w] rebinds [v] to [v + w]. *)
Record Vector : Type := mkVector { vx : R; vy : R; vz : R }.

Definition vzero : Vector := mkVector 0 0 0.

Definition vadd (a b : Vector) : Vector :=
  mkVector (vx a + vx b) (vy a + vy b) (vz a + vz b).

Definition vsub (a b : Vector) : Vector :=
  mkVector (vx a - vx b) (vy a - vy b) (vz a - vz b).

Definition vscale (a : Vector) (k : R) : Vector :=
  mkVector (vx a * k) (vy a * k) (vz a * k).

Inductive value : Type :=
| VNone
| VNum (x : R)
| VList (l : list R)
| VVec (v : Vector).

Inductive exn : Type :=
| NameError (name : string)
| AttributeError (attr : string)
| TypeError (msg : string)
| IndexError
| ZeroDivisionError.

Inductive res (A : Type) : Type :=
| Ok (a : A)
| Raise (e : exn).
Arguments Ok {A} a.
Arguments Raise {A} e.

Definition raised {A} (r : res A) : Prop := exists e, r = Raise e.

(** ** The run time *)

(** The attribute dictionary of the one [Drone] instance a method runs on. *)
Abbreviation obj := (gmap string value).

Definition M (A : Type) : Type := obj -> res A * obj.

Definition ret {A} (a : A) : M A := fun d => (Ok a, d).

Definition raise {A} (e : exn) : M A := fun d => (Raise e, d).

Definition bind {A B} (m : M A) (k : A -> M B) : M B :=
  fun d => match m d with
           | (Ok a, d') => k a d'
           | (Raise e, d') => (Raise e, d')
           end.

Notation "'let*' x ':=' m 'in' k" := (bind m (fun x => k))
  (at level 10, x name, m at level 100, k at level 200).

Fixpoint mapM {A B} (f : A -> M B) (l : list A) : M (list B) :=
  match l with
  | [] => ret []
  | a :: l' => let* b := f a in let* bs := mapM f l' in ret (b :: bs)
  end.

(** [self.name] *)
Definition getattr (name : string) : M value :=
  fun d => match d !! name with
           | Some v => (Ok v, d)
           | None => (Raise (AttributeError name), d)
           end.

(** [self.name = v] *)
Definition setattr (name : string) (v : value) : M unit :=
  fun d => (Ok tt, <[name := v]> d).

(** Reading the free name [x] of a method body: the module namespace, then
    the built-in functions the methods use. *)
Definition builtins : list string := ["sum"; "len"].

Definition global (G : list string) (x : string) : M unit :=
  if bool_decide (x ∈ (G ++ builtins)%list) then ret tt else raise (NameError x).

(** [from vector import Vector] and [from math import pi, cos, sin], and the
    class statement itself. *)
Definition module_globals : list string := ["Vector"; "pi"; "cos"; "sin"; "Drone"].

(** The call [self.f(a1, ..., an)] of a function defined in the class body:
    the instance is passed first, so the function receives [n + 1] positional
    arguments; it accepts them when it declares at least that many
    parameters and at most [ndefaults] of the missing ones have a default. *)
Definition method_call (fname : string) (params : list string) (ndefaults nargs : nat)
  : M unit :=
  let given := S nargs in
  if (length params <? given)%nat then
    raise (TypeError (fname ++ "() takes fewer positional arguments than were given"))
  else if (given + ndefaults <? length params)%nat then
    raise (TypeError (fname ++ "() missing required positional arguments"))
  else ret tt.

(** Dynamic type tests of the operations the methods apply to attributes. *)
Definition as_num (v : value) : M R :=
  match v with VNum x => ret x | _ => raise (TypeError "unsupported operand type") end.

Definition as_list (v : value) : M (list R) :=
  match v with VList l => ret l | _ => raise (TypeError "object is not iterable") end.

Definition as_vec (v : value) : M Vector :=
  match v with VVec u => ret u | _ => raise (AttributeError "x") end.

(** [l[i]] *)
Definition subscript (l : list R) (i : nat) : M R :=
  match l !! i with Some x => ret x | None => raise IndexError end.

(** [a / b] on numbers *)
Definition truediv (a b : R) : M R :=
  if Req_dec_T b 0 then raise ZeroDivisionError else ret (a / b).

(** [v / k], component by component *)
Definition vtruediv (v : Vector) (k : R) : M Vector :=
  let* x := truediv (vx v) k in
  let* y := truediv (vy v) k in
  let* z := truediv (vz v) k in
  ret (mkVector x y z).

(** [sum(l)] starts from [0] and adds from the left. *)
Definition pysum (l : list R) : R := fold_left Rplus l 0.

(** [a *= b] on a list [a]: repetition when [b] is an integer, and a
    [TypeError] for any other right operand. *)
Definition list_imul (a : list R) (b : Z + list R) : M (list R) :=
  match b with
  | inl n => ret (concat (replicate (Z.to_nat n) a))
  | inr _ => raise (TypeError "can't multiply sequence by non-int of type 'list'")
  end.

(** What [np] denotes where a namespace binds it: NumPy, whose [array] turns a
    nested list into a matrix and whose [matmul] is the matrix product. *)
Definition ndarray : Type := list (list R).

Definition np_array (rows : list (list R)) : ndarray := rows.

Definition dot (u v : list R) : R := pysum (zip_with Rmult u v).

Definition column (B : ndarray) (j : nat) : list R :=
  map (fun row => nth j row 0) B.

Definition np_matmul (A B : ndarray) : ndarray :=
  map (fun row => map (fun j => dot row (column B j)) (seq 0 (length (hd [] B)))) A.

(** [m[i]] on a matrix is its row [i]; a row of a one-column matrix holds one
    entry, which is what a [Vector] built from that row carries. *)
Definition row_entry (m : ndarray) (i : nat) : M R :=
  match m !! i with
  | Some [x] => ret x
  | Some _ => raise (TypeError "only length-1 arrays can be converted to scalars")
  | None => raise IndexError
  end.

(** ** The class [Drone] *)

Section Methods.

(** The names bound in the namespace of the module. *)
Variable G : list string.

(** [Drone.__init__], drone.py:25-54, on a fresh instance. *)
Definition init (rotor_radius weight size m_of_i_xx m_of_i_zz m_of_i_r : option R)
  : M unit :=
  let rotor_radius := default 15 rotor_radius in
  let weight := default 50 weight in
  let size := default 10 size in
  let m_of_i_xx := default 1 m_of_i_xx in
  let m_of_i_zz := default 1 m_of_i_zz in
  let m_of_i_r := default 1 m_of_i_r in
  let* _ := global G "Vector" in
  let* _ := setattr "rotation" (VVec vzero) in
  let* _ := global G "Vector" in
  let* _ := setattr "rotation_velocity" (VVec vzero) in
  let* _ := global G "Vector" in
  let* _ := setattr "pos" (VVec vzero) in
  let* _ := global G "Vector" in
  let* _ := setattr "velocity" (VVec vzero) in
  let* _ := setattr "r_speed" (VList [0; 0; 0; 0]) in
  let* _ := setattr "r" (VNum rotor_radius) in
  let* _ := setattr "weight" (VNum weight) in
  let* _ := setattr "size" (VNum size) in
  let* _ := setattr "m_of_i_xx" (VNum m_of_i_xx) in
  let* _ := setattr "m_of_i_zz" (VNum m_of_i_zz) in
  setattr "m_of_i_r" (VNum m_of_i_r).

(** [Drone(...)]: the instance [__init__] leaves, or the exception it
    raised. *)
Definition Drone (rotor_radius weight size m_of_i_xx m_of_i_zz m_of_i_r : option R)
  : res obj :=
  match init rotor_radius weight size m_of_i_xx m_of_i_zz m_of_i_r ∅ with
  | (Ok _, d) => Ok d
  | (Raise e, _) => Raise e
  end.

(** The function [change_rotor_speed], drone.py:57-65.  Its only parameter
    is [r_speed]; the name [self] in its body is a free name. *)
Definition change_rotor_speed_params : list string := ["r_speed"].

Definition change_rotor_speed_body (r_speed : list R) : M unit :=
  let* _ := global G "len" in
  if (length r_speed =? 4)%nat then
    let* _ := global G "self" in
    setattr "r_speed" (VList r_speed)
  else ret tt.

(** [self.change_rotor_speed(r_speed)] *)
Definition change_rotor_speed (r_speed : list R) : M unit :=
  let* _ := method_call "change_rotor_speed" change_rotor_speed_params 0 1 in
  change_rotor_speed_body r_speed.

(** [Drone.calc_rotor_force], drone.py:166-178 *)
Definition calc_rotor_force (speed : R) (drag_coef air_density : option R) : M R :=
  let* _ := method_call "calc_rotor_force"
              ["self"; "speed"; "drag_coef"; "air_density"] 2
              (1 + length (option_list drag_coef) + length (option_list air_density)) in
  let drag_coef := default 0.05 drag_coef in
  let air_density := default 1.225 air_density in
  let* _ := global G "pi" in
  let* r := getattr "r" in
  let* r := as_num r in
  ret (drag_coef * air_density * PI * r ^ 3 * speed).

(** [Drone.calc_thrust], drone.py:95-125.  Each matrix reads its angle
    several times and each NumPy call reads [np] again; a read changes
    nothing, so a name or an attribute read once with success is not read
    again here. *)
Definition calc_thrust : M Vector :=
  let* _ := method_call "calc_thrust" ["self"] 0 0 in
  let* _ := global G "sum" in
  let* r_speed := getattr "r_speed" in
  let* r_speed := as_list r_speed in
  let* forces := mapM (fun s => calc_rotor_force s None None) r_speed in
  let total_force := pysum forces in
  let* _ := global G "np" in
  let force_matrix := np_array [[0]; [0]; [total_force]] in
  let* _ := global G "np" in
  let* _ := global G "cos" in
  let* roll := getattr "roll" in
  let* roll := as_num roll in
  let* _ := global G "sin" in
  let roll_matrix := np_array [[cos roll; 0; - sin roll];
                               [0; 1; 0];
                               [sin roll; 0; cos roll]] in
  let force_matrix := np_matmul roll_matrix force_matrix in
  let* pitch := getattr "pitch" in
  let* pitch := as_num pitch in
  let pitch_matrix := np_array [[1; 0; 0];
                                [0; cos pitch; - sin pitch];
                                [0; sin pitch; cos pitch]] in
  let force_matrix := np_matmul pitch_matrix force_matrix in
  let* yaw := getattr "yaw" in
  let* yaw := as_num yaw in
  let yaw_matrix := np_array [[cos yaw; sin yaw; 0];
                              [- sin yaw; cos yaw; 0];
                              [0; 0; 1]] in
  let force_matrix := np_matmul yaw_matrix force_matrix in
  let* _ := global G "Vector" in
  let* x := row_entry force_matrix 0 in
  let* y := row_entry force_matrix 1 in
  let* z := row_entry force_matrix 2 in
  ret (mkVector x y z).

(** [Drone.calc_rotation], drone.py:127-148 *)
Definition calc_rotation (front_speed back_speed : R) : M R :=
  let* _ := method_call "calc_rotation" ["self"; "front_speed"; "back_speed"] 0 2 in
  let* front_force := calc_rotor_force front_speed None None in
  let* back_force := calc_rotor_force back_speed None None in
  let total_force := front_force - back_force in
  let* size := getattr "size" in
  let* size := as_num size in
  let torque := total_force * size / 2 in
  let* m_of_i_xx := getattr "m_of_i_xx" in
  let* m_of_i_xx := as_num m_of_i_xx in
  truediv torque m_of_i_xx.

(** [Drone.calc_yaw], drone.py:150-164 *)
Definition calc_yaw : M R :=
  let* _ := method_call "calc_yaw" ["self"] 0 0 in
  let* r_speed := getattr "r_speed" in
  let* r_speed := as_list r_speed in
  let* angular_momentum :=
    mapM (fun s => let* m_of_i_r := getattr "m_of_i_r" in
                   let* m_of_i_r := as_num m_of_i_r in
                   ret (m_of_i_r * s)) r_speed in
  let* angular_momentum := list_imul angular_momentum (inr [1; -1; 1; -1]) in
  let* _ := global G "sum" in
  let total_angular_momentum := pysum angular_momentum in
  let* m_of_i_zz := getattr "m_of_i_zz" in
  let* m_of_i_zz := as_num m_of_i_zz in
  truediv total_angular_momentum m_of_i_zz.

(** [Drone.get_params], drone.py:180-196 *)
Definition get_params : M (list value) :=
  let* _ := method_call "get_params" ["self"] 0 0 in
  let* pos := getattr "pos" in
  let* pos := as_vec pos in
  let* velocity := getattr "velocity" in
  let* velocity := as_vec velocity in
  let* roll := getattr "roll" in
  let* pitch := getattr "pitch" in
  let* yaw := getattr "yaw" in
  ret [VNum (vx pos); VNum (vy pos); VNum (vz pos);
       VNum (vx velocity); VNum (vy velocity); VNum (vz velocity);
       roll; pitch; yaw].

(** [Drone.update], drone.py:67-93.  The methods it calls are looked up on
    [self] when the call runs: the body is given over the four it calls,
    and [update] below is the body over the methods of the class. *)
Section UpdateBody.

Variable m_change_rotor_speed : list R -> M unit.
Variable m_calc_thrust : M Vector.
Variable m_calc_rotation : R -> R -> M R.
Variable m_calc_yaw : M R.

Definition update_body (dt g : option R) (r_speed : option (list R)) : M unit :=
  let* _ := method_call "update" ["self"; "dt"; "g"; "r_speed"] 3
              (length (option_list dt) + length (option_list g)
               + length (option_list r_speed)) in
  let dt := default 1 dt in
  let g := default (-9.81) g in
  (* Update rotor speeds if necessary *)
  let* _ := match r_speed with
            | Some r_speed => m_change_rotor_speed r_speed
            | None => ret tt
            end in
  (* Calculate acceleration in all 3 axis *)
  let* thrust := m_calc_thrust in
  let* _ := global G "Vector" in
  let gravity := mkVector 0 0 g in
  let total_force := vadd thrust gravity in
  let* weight := getattr "weight" in
  let* weight := as_num weight in
  let* acceleration := vtruediv total_force weight in
  (* Calculate change in rotations *)
  let* rs := getattr "r_speed" in
  let* rs := as_list rs in
  let* s0 := subscript rs 0 in
  let* rs := getattr "r_speed" in
  let* rs := as_list rs in
  let* s3 := subscript rs 3 in
  let* roll := m_calc_rotation s0 s3 in
  let* rs := getattr "r_speed" in
  let* rs := as_list rs in
  let* s1 := subscript rs 1 in
  let* rs := getattr "r_speed" in
  let* rs := as_list rs in
  let* s2 := subscript rs 2 in
  let* pitch := m_calc_rotation s1 s2 in
  let* yaw := m_calc_yaw in
  (* Apply deltas *)
  let* pos := getattr "pos" in
  let* pos := as_vec pos in
  let* velocity := getattr "velocity" in
  let* velocity := as_vec velocity in
  let* _ := setattr "pos" (VVec (vadd pos (vscale velocity dt))) in
  let* velocity := getattr "velocity" in
  let* velocity := as_vec velocity in
  setattr "velocity" (VVec (vadd velocity (vscale acceleration dt))).

End UpdateBody.

Definition update (dt g : option R) (r_speed : option (list R)) : M unit :=
  update_body change_rotor_speed calc_thrust calc_rotation calc_yaw dt g r_speed.

End Methods.

(** The instance a caller gets from [Drone()] in the module as it is. *)
Definition new_drone : obj :=
  snd (init module_globals None None None None None None ∅).


(** An instance whose rotor speeds were assigned by its owner
    ([d.r_speed = [10, 0, 0, 0]]), the way the class documents the
    attribute. *)
Definition spinning_drone : obj := <["r_speed" := VList [10; 0; 0; 0]]> new_drone.

(** An instance whose owner also assigned the three angles the methods read
    as [self.roll], [self.pitch] and [self.yaw]. *)
Definition with_angles (roll pitch yaw : R) (d : obj) : obj :=
  <["yaw" := VNum yaw]> (<["pitch" := VNum pitch]> (<["roll" := VNum roll]> d)).

(** [v / k] where it is defined. *)
Definition vdiv (v : Vector) (k : R) : Vector :=
  mkVector (vx v / k) (vy v / k) (vz v / k).

(** *** The specification's wording of the thrust vector

    Section 4.1, step 3: the thrust magnitude on the body Z axis, rotated by
    roll about Y, then pitch about X, then yaw about Z. *)
Definition rot_roll (a : R) (v : Vector) : Vector :=
  mkVector (cos a * vx v - sin a * vz v) (vy v) (sin a * vx v + cos a * vz v).

Definition rot_pitch (a : R) (v : Vector) : Vector :=
  mkVector (vx v) (cos a * vy v - sin a * vz v) (sin a * vy v + cos a * vz v).

Definition rot_yaw (a : R) (v : Vector) : Vector :=
  mkVector (cos a * vx v + sin a * vy v) (- sin a * vx v + cos a * vy v) (vz v).

Definition spec_thrust (roll pitch yaw total : R) : Vector :=
  rot_yaw yaw (rot_pitch pitch (rot_roll roll (mkVector 0 0 total))).

(** The per-rotor force of section 4.1, step 1, with the default drag
    coefficient and air density. *)
Definition spec_rotor_force (rotor_radius s : R) : R :=
  0.05 * 1.225 * PI * rotor_radius ^ 3 * s.

(** The linear acceleration of section 4.1, steps 4 and 5, as the source
    computes it: gravity is added to the force unscaled and the total is
    divided by the mass. *)
Definition spec_acceleration (thrust : Vector) (g mass : R) : Vector :=
  vdiv (vadd thrust (mkVector 0 0 g)) mass.

(** *** Sequences of calls

    What a user of the class can call on an instance: each method through
    the instance, and [change_rotor_speed] also through the class
    ([Drone.change_rotor_speed(l)]), where its one parameter receives the
    list. *)
Inductive call : Type :=
| CallUpdate (dt g : option R) (r_speed : option (list R))
| CallChangeRotorSpeed (r_speed : list R)
| CallClassChangeRotorSpeed (r_speed : list R)
| CallCalcThrust
| CallCalcRotation (front_speed back_speed : R)
| CallCalcYaw
| CallCalcRotorForce (speed : R) (drag_coef air_density : option R)
| CallGetParams.

(** The instance a call leaves, whether it returns or raises. *)
Definition run_call (G : list string) (c : call) (d : obj) : obj :=
  match c with
  | CallUpdate dt g r_speed => snd (update G dt g r_speed d)
  | CallChangeRotorSpeed r_speed => snd (change_rotor_speed G r_speed d)
  | CallClassChangeRotorSpeed r_speed => snd (change_rotor_speed_body G r_speed d)
  | CallCalcThrust => snd (calc_thrust G d)
  | CallCalcRotation front_speed back_speed =>
      snd (calc_rotation G front_speed back_speed d)
  | CallCalcYaw => snd (calc_yaw G d)
  | CallCalcRotorForce speed drag_coef air_density =>
      snd (calc_rotor_force G speed drag_coef air_density d)
  | CallGetParams => snd (get_params d)
  end.

Definition run_calls (G : list string) (cs : list call) (d : obj) : obj :=
  fold_left (fun d c => run_call G c d) cs d.



(** ** Reasoning about method bodies *)

(** A computation that only reads the instance. *)
Definition pure {A} (m : M A) : Prop := forall d, snd (m d) = d.

(** A computation that raises and leaves the instance as it found it. *)
Definition aborts {A} (m : M A) : Prop := forall d, exists e, m d = (Raise e, d).

(** A computation that assigns no attribute outside [names]. *)
Definition assigns_within {A} (names : list string) (m : M A) : Prop :=
  forall d a, a ∉ names -> snd (m d) !! a = d !! a.

Create HintDb drone discriminated.

Lemma pure_ret {A} (a : A) : pure (ret a).
Proof. intros d. reflexivity. Qed.

Lemma pure_raise {A} e : pure (@raise A e).
Proof. intros d. reflexivity. Qed.

Lemma pure_bind {A B} (m : M A) (k : A -> M B) :
  pure m -> (forall a, pure (k a)) -> pure (bind m k).
Proof.
  intros Hm Hk d. unfold bind. specialize (Hm d).
  destruct (m d) as [[a|e] d']; simpl in *; subst d'.
  - apply Hk.
  - reflexivity.
Qed.

Lemma pure_getattr name : pure (getattr name).
Proof. intros d. unfold getattr. destruct (d !! name); reflexivity. Qed.

Lemma pure_global G x : pure (global G x).
Proof. intros d. unfold global. case_bool_decide; reflexivity. Qed.

Lemma pure_method_call f ps nd n : pure (method_call f ps nd n).
Proof.
  intros d. unfold method_call.
  destruct (_ <? _)%nat; [reflexivity|]. destruct (_ <? _)%nat; reflexivity.
Qed.

Lemma pure_as_num v : pure (as_num v).
Proof. destruct v; intros d; reflexivity. Qed.

Lemma pure_as_list v : pure (as_list v).
Proof. destruct v; intros d; reflexivity. Qed.

Lemma pure_as_vec v : pure (as_vec v).
Proof. destruct v; intros d; reflexivity. Qed.

Lemma pure_subscript l i : pure (subscript l i).
Proof. intros d. unfold subscript. destruct (l !! i); reflexivity. Qed.

Lemma pure_truediv a b : pure (truediv a b).
Proof. intros d. unfold truediv. destruct (Req_dec_T b 0); reflexivity. Qed.

Lemma pure_list_imul a b : pure (list_imul a b).
Proof. destruct b; intros d; reflexivity. Qed.

Lemma pure_row_entry m i : pure (row_entry m i).
Proof.
  intros d. unfold row_entry.
  destruct (m !! i) as [[|x [|y r]]|]; reflexivity.
Qed.

#[export] Hint Resolve pure_ret pure_raise pure_getattr pure_global pure_method_call
  pure_as_num pure_as_list pure_as_vec pure_subscript pure_truediv pure_list_imul
  pure_row_entry : drone.

Ltac pure_steps :=
  repeat first
    [ progress auto with drone
    | apply pure_bind; [| intros ? ] ].

Lemma pure_vtruediv v k : pure (vtruediv v k).
Proof. unfold vtruediv. pure_steps. Qed.

Lemma pure_mapM {A B} (f : A -> M B) l : (forall a, pure (f a)) -> pure (mapM f l).
Proof.
  intros Hf. induction l as [|a l IH]; simpl.
  - apply pure_ret.
  - apply pure_bind; [apply Hf|]. intros b.
    apply pure_bind; [apply IH|]. intros bs. apply pure_ret.
Qed.

#[export] Hint Resolve pure_vtruediv : drone.

Lemma pure_calc_rotor_force G s dc ad : pure (calc_rotor_force G s dc ad).
Proof. unfold calc_rotor_force. pure_steps. Qed.

#[export] Hint Resolve pure_calc_rotor_force : drone.

Lemma pure_calc_thrust G : pure (calc_thrust G).
Proof.
  unfold calc_thrust.
  repeat first
    [ progress auto with drone
    | apply pure_mapM; intros ?
    | apply pure_bind; [| intros ? ] ].
Qed.

Lemma pure_calc_rotation G a b : pure (calc_rotation G a b).
Proof. unfold calc_rotation. pure_steps. Qed.

Lemma pure_calc_yaw G : pure (calc_yaw G).
Proof.
  unfold calc_yaw.
  repeat first
    [ progress auto with drone
    | apply pure_mapM; intros ?
    | apply pure_bind; [| intros ? ] ].
Qed.

Lemma pure_get_params : pure get_params.
Proof. unfold get_params. pure_steps. Qed.

#[export] Hint Resolve pure_calc_thrust pure_calc_rotation pure_calc_yaw : drone.

Lemma aborts_raise {A} e : aborts (@raise A e).
Proof. intros d. exists e. reflexivity. Qed.

Lemma aborts_bind_l {A B} (m : M A) (k : A -> M B) : aborts m -> aborts (bind m k).
Proof.
  intros Hm d. destruct (Hm d) as [e He]. exists e. unfold bind. rewrite He. reflexivity.
Qed.

Lemma aborts_bind_r {A B} (m : M A) (k : A -> M B) :
  pure m -> (forall a, aborts (k a)) -> aborts (bind m k).
Proof.
  intros Hm Hk d. unfold bind. specialize (Hm d).
  destruct (m d) as [[a|e] d']; simpl in *; subst d'.
  - apply Hk.
  - exists e. reflexivity.
Qed.

Lemma aborts_pure {A} (m : M A) : aborts m -> pure m.
Proof. intros Hm d. destruct (Hm d) as [e ->]. reflexivity. Qed.

Lemma aborts_raised {A} (m : M A) d : aborts m -> raised (fst (m d)).
Proof. intros Hm. destruct (Hm d) as [e ->]. exists e. reflexivity. Qed.

Lemma assigns_within_pure {A} names (m : M A) : pure m -> assigns_within names m.
Proof. intros Hm d a _. rewrite Hm. reflexivity. Qed.

Lemma assigns_within_mono {A} names names' (m : M A) :
  names ⊆ names' -> assigns_within names m -> assigns_within names' m.
Proof. intros Hsub Hm d a Ha. apply Hm. intros Hin. apply Ha, Hsub, Hin. Qed.

Lemma assigns_within_setattr names name v :
  name ∈ names -> assigns_within names (setattr name v).
Proof.
  intros Hin d a Ha. unfold setattr; simpl.
  apply lookup_insert_ne. intros ->. exact (Ha Hin).
Qed.

Lemma assigns_within_bind {A B} names (m : M A) (k : A -> M B) :
  assigns_within names m -> (forall a, assigns_within names (k a)) ->
  assigns_within names (bind m k).
Proof.
  intros Hm Hk d a Ha. unfold bind. specialize (Hm d a Ha).
  destruct (m d) as [[x|e] d']; simpl in *.
  - rewrite (Hk x d' a Ha). exact Hm.
  - exact Hm.
Qed.

(** *** What the methods of the class do to the instance *)

(** The list operand of [*=] at drone.py:159 makes [calc_yaw] raise in
    every namespace and on every instance. *)
Lemma aborts_calc_yaw G : aborts (calc_yaw G).
Proof.
  unfold calc_yaw.
  apply aborts_bind_r; [auto with drone|]; intros _.
  apply aborts_bind_r; [auto with drone|]; intros v.
  apply aborts_bind_r; [auto with drone|]; intros l.
  apply aborts_bind_r.
  - apply pure_mapM. intros s. pure_steps.
  - intros am. apply aborts_bind_l. apply aborts_raise.
Qed.

(** A call through the instance hands [change_rotor_speed] two positional
    arguments; it declares one parameter. *)
Lemma aborts_change_rotor_speed G r_speed : aborts (change_rotor_speed G r_speed).
Proof. unfold change_rotor_speed. apply aborts_bind_l. apply aborts_raise. Qed.

Lemma assigns_within_change_rotor_speed_body G r_speed :
  assigns_within ["r_speed"] (change_rotor_speed_body G r_speed).
Proof.
  unfold change_rotor_speed_body.
  apply assigns_within_bind; [apply assigns_within_pure; auto with drone|]; intros _.
  destruct (_ =? _)%nat.
  - apply assigns_within_bind; [apply assigns_within_pure; auto with drone|]; intros _.
    apply assigns_within_setattr. set_solver.
  - apply assigns_within_pure; auto with drone.
Qed.

Section UpdateBodyFacts.

Variable G : list string.
Variable m_change_rotor_speed : list R -> M unit.
Variable m_calc_thrust : M Vector.
Variable m_calc_rotation : R -> R -> M R.
Variable m_calc_yaw : M R.

Hypothesis change_rotor_speed_frame :
  forall r_speed, assigns_within ["r_speed"] (m_change_rotor_speed r_speed).
Hypothesis calc_thrust_pure : pure m_calc_thrust.
Hypothesis calc_rotation_pure : forall a b, pure (m_calc_rotation a b).
Hypothesis calc_yaw_pure : pure m_calc_yaw.

(** Whatever the methods it calls return, the body of [update] assigns
    [pos] and [velocity] and nothing else of its own; the rotor speeds
    are assigned by [change_rotor_speed] only. *)
Lemma update_body_frame dt g r_speed :
  assigns_within ["r_speed"; "pos"; "velocity"]
    (update_body G m_change_rotor_speed m_calc_thrust m_calc_rotation m_calc_yaw
       dt g r_speed).
Proof.
  unfold update_body.
  apply assigns_within_bind; [apply assigns_within_pure; auto with drone|]; intros _.
  apply assigns_within_bind.
  { destruct r_speed as [rs|].
    - eapply assigns_within_mono; [|apply change_rotor_speed_frame].
      intros a Ha. set_unfold. tauto.
    - apply assigns_within_pure; auto with drone. }
  intros _.
  repeat first
    [ apply assigns_within_setattr; set_solver
    | apply assigns_within_bind;
      [ first [ apply assigns_within_setattr; set_solver
              | apply assigns_within_pure; auto with drone ] | intros ? ] ].
Qed.

Lemma update_body_frame_no_speeds dt g :
  assigns_within ["pos"; "velocity"]
    (update_body G m_change_rotor_speed m_calc_thrust m_calc_rotation m_calc_yaw
       dt g None).
Proof.
  clear change_rotor_speed_frame.
  unfold update_body.
  apply assigns_within_bind; [apply assigns_within_pure; auto with drone|]; intros _.
  apply assigns_within_bind; [apply assigns_within_pure; auto with drone|]; intros _.
  repeat first
    [ apply assigns_within_setattr; set_solver
    | apply assigns_within_bind;
      [ first [ apply assigns_within_setattr; set_solver
              | apply assigns_within_pure; auto with drone ] | intros ? ] ].
Qed.

End UpdateBodyFacts.

(** *** [update] in the module as it is *)

(** In every namespace [update] raises before it assigns anything: a call
    with rotor speeds stops at [change_rotor_speed], one without them stops
    in [calc_thrust] or, at the latest, in [calc_yaw]. *)
Lemma aborts_update G dt g r_speed : aborts (update G dt g r_speed).
Proof.
  unfold update, update_body.
  apply aborts_bind_r; [auto with drone|]; intros _.
  destruct r_speed as [rs|].
  { apply aborts_bind_l, aborts_change_rotor_speed. }
  repeat first
    [ apply aborts_bind_l, aborts_calc_yaw
    | apply aborts_bind_r; [solve [auto with drone]|]; intros ? ].
Qed.

Lemma update_state G dt g r_speed d : snd (update G dt g r_speed d) = d.
Proof. apply aborts_pure, aborts_update. Qed.


(** *** Running a method body step by step *)

Lemma bind_ok {A B} (m : M A) (k : A -> M B) d a d' :
  m d = (Ok a, d') -> bind m k d = k a d'.
Proof. intros H. unfold bind. rewrite H. reflexivity. Qed.

Lemma getattr_ok name d v : d !! name = Some v -> getattr name d = (Ok v, d).
Proof. intros H. unfold getattr. rewrite H. reflexivity. Qed.

Lemma global_ok G x d : x ∈ (G ++ builtins)%list -> global G x d = (Ok tt, d).
Proof. intros H. unfold global. rewrite bool_decide_eq_true_2 by exact H. reflexivity. Qed.

Lemma truediv_ok a b d : b <> 0 -> truediv a b d = (Ok (a / b), d).
Proof. intros H. unfold truediv. destruct (Req_dec_T b 0); [contradiction|reflexivity]. Qed.

Lemma vtruediv_ok v k d : k <> 0 -> vtruediv v k d = (Ok (vdiv v k), d).
Proof.
  intros H. unfold vtruediv.
  rewrite (bind_ok _ _ _ _ _ (truediv_ok _ _ _ H)).
  rewrite (bind_ok _ _ _ _ _ (truediv_ok _ _ _ H)).
  rewrite (bind_ok _ _ _ _ _ (truediv_ok _ _ _ H)).
  reflexivity.
Qed.

Lemma mapM_ok {A B} (f : A -> M B) (g : A -> B) l d :
  (forall a, f a d = (Ok (g a), d)) -> mapM f l d = (Ok (map g l), d).
Proof.
  intros Hf. induction l as [|a l IH]; simpl.
  - reflexivity.
  - rewrite (bind_ok _ _ _ _ _ (Hf a)), (bind_ok _ _ _ _ _ IH). reflexivity.
Qed.

Lemma in_globals G x : x ∈ G -> x ∈ (G ++ builtins)%list.
Proof. intros H. apply elem_of_app. left. exact H. Qed.

(** The value of [calc_rotor_force] on an instance whose [r] is a number. *)
Lemma calc_rotor_force_ok G s dc ad d r :
  "pi" ∈ G -> d !! "r" = Some (VNum r) ->
  calc_rotor_force G s dc ad d
  = (Ok (default 0.05 dc * default 1.225 ad * PI * r ^ 3 * s), d).
Proof.
  intros Hpi Hr. unfold calc_rotor_force.
  rewrite (bind_ok _ _ d tt d).
  2:{ destruct dc, ad; reflexivity. }
  rewrite (bind_ok _ _ _ _ _ (global_ok _ _ _ (in_globals _ _ Hpi))).
  rewrite (bind_ok _ _ _ _ _ (getattr_ok _ _ _ Hr)).
  reflexivity.
Qed.

Ltac step_with H := rewrite (bind_ok _ _ _ _ _ H).

Ltac step_global :=
  match goal with
  | |- context [bind (global ?G ?x) _ ?d] =>
      rewrite (bind_ok (global G x) _ d tt d)
        by (apply global_ok; set_unfold; tauto)
  end.

Ltac step_call :=
  match goal with
  | |- context [bind (method_call ?f ?ps ?nd ?n) _ ?d] =>
      rewrite (bind_ok (method_call f ps nd n) _ d tt d) by reflexivity
  end.

(** Where the namespace binds [np] and the instance carries the three
    angles, [calc_thrust] returns the vector of section 4.1, step 3: the total
    of the rotor forces on the Z axis, rotated by roll, pitch and yaw in
    that order. *)
Lemma calc_thrust_with_numpy d r speeds roll pitch yaw :
  d !! "r" = Some (VNum r) ->
  d !! "r_speed" = Some (VList speeds) ->
  d !! "roll" = Some (VNum roll) ->
  d !! "pitch" = Some (VNum pitch) ->
  d !! "yaw" = Some (VNum yaw) ->
  calc_thrust ("np" :: module_globals) d
  = (Ok (spec_thrust roll pitch yaw (pysum (map (spec_rotor_force r) speeds))), d).
Proof.
  intros Hr Hs Hroll Hpitch Hyaw. unfold calc_thrust.
  step_call. step_global.
  step_with (getattr_ok _ _ _ Hs). simpl as_list. step_with (eq_refl (ret speeds d)).
  assert (Hforces : forall s, calc_rotor_force ("np" :: module_globals) s None None d
                               = (Ok (spec_rotor_force r s), d)).
  { intros s. rewrite (calc_rotor_force_ok _ s None None d r); [reflexivity| |exact Hr].
    set_unfold; tauto. }
  step_with (mapM_ok (fun s => calc_rotor_force ("np" :: module_globals) s None None)
               (spec_rotor_force r) speeds d Hforces).
  do 3 step_global.
  step_with (getattr_ok _ _ _ Hroll). step_with (eq_refl (as_num (VNum roll) d)).
  step_global.
  step_with (getattr_ok _ _ _ Hpitch). step_with (eq_refl (as_num (VNum pitch) d)).
  step_with (getattr_ok _ _ _ Hyaw). step_with (eq_refl (as_num (VNum yaw) d)).
  step_global.
  unfold np_matmul, np_array, row_entry, dot, column, pysum, ret, bind; simpl.
  unfold spec_thrust, rot_yaw, rot_pitch, rot_roll; simpl.
  f_equal. f_equal. f_equal; ring.
Qed.

(** The value of [calc_rotation]: the force difference of the pair times
    half the size, over [m_of_i_xx]. *)
Lemma calc_rotation_ok G front back d r size m_of_i_xx :
  "pi" ∈ G ->
  d !! "r" = Some (VNum r) ->
  d !! "size" = Some (VNum size) ->
  d !! "m_of_i_xx" = Some (VNum m_of_i_xx) ->
  m_of_i_xx <> 0 ->
  calc_rotation G front back d
  = (Ok ((spec_rotor_force r front - spec_rotor_force r back) * size / 2 / m_of_i_xx), d).
Proof.
  intros Hpi Hr Hsize Hxx Hnz. unfold calc_rotation.
  step_call.
  step_with (calc_rotor_force_ok G front None None d r Hpi Hr).
  step_with (calc_rotor_force_ok G back None None d r Hpi Hr).
  step_with (getattr_ok _ _ _ Hsize). step_with (eq_refl (as_num (VNum size) d)).
  step_with (getattr_ok _ _ _ Hxx). step_with (eq_refl (as_num (VNum m_of_i_xx) d)).
  apply truediv_ok, Hnz.
Qed.

(** On an instance that carries the three angles, [get_params] returns the
    nine values in the order of section 4.1. *)
Lemma get_params_with_angles d p v roll pitch yaw :
  d !! "pos" = Some (VVec p) ->
  d !! "velocity" = Some (VVec v) ->
  d !! "roll" = Some roll ->
  d !! "pitch" = Some pitch ->
  d !! "yaw" = Some yaw ->
  get_params d
  = (Ok [VNum (vx p); VNum (vy p); VNum (vz p);
         VNum (vx v); VNum (vy v); VNum (vz v); roll; pitch; yaw], d).
Proof.
  intros Hp Hv Hroll Hpitch Hyaw. unfold get_params.
  step_call.
  step_with (getattr_ok _ _ _ Hp). step_with (eq_refl (as_vec (VVec p) d)).
  step_with (getattr_ok _ _ _ Hv). step_with (eq_refl (as_vec (VVec v) d)).
  step_with (getattr_ok _ _ _ Hroll).
  step_with (getattr_ok _ _ _ Hpitch).
  step_with (getattr_ok _ _ _ Hyaw).
  reflexivity.
Qed.

Section UpdateBodyEuler.

Variable G : list string.
Variable m_change_rotor_speed : list R -> M unit.
Variable m_calc_thrust : M Vector.
Variable m_calc_rotation : R -> R -> M R.
Variable m_calc_yaw : M R.

Variable d : obj.
Variables (thrust p v : Vector) (weight s0 s1 s2 s3 : R).

Hypothesis Vector_bound : "Vector" ∈ G.
Hypothesis thrust_returns : m_calc_thrust d = (Ok thrust, d).
Hypothesis rotation_returns : forall a b, exists rate, m_calc_rotation a b d = (Ok rate, d).
Hypothesis yaw_returns : exists rate, m_calc_yaw d = (Ok rate, d).
Hypothesis d_weight : d !! "weight" = Some (VNum weight).
Hypothesis weight_nonzero : weight <> 0.
Hypothesis d_r_speed : d !! "r_speed" = Some (VList [s0; s1; s2; s3]).
Hypothesis d_pos : d !! "pos" = Some (VVec p).
Hypothesis d_velocity : d !! "velocity" = Some (VVec v).

(** Once the three calculations return, the body of [update] performs the
    Euler step of section 4.1: the acceleration is the thrust plus the
    unscaled gravity, over the mass; [pos] advances by the velocity read
    before the step, and [velocity] by the acceleration; nothing else is
    assigned, the rotation in particular. *)
Lemma update_body_euler dt g :
  update_body G m_change_rotor_speed m_calc_thrust m_calc_rotation m_calc_yaw
    (Some dt) (Some g) None d
  = (Ok tt,
     <["velocity" := VVec (vadd v (vscale (spec_acceleration thrust g weight) dt))]>
       (<["pos" := VVec (vadd p (vscale v dt))]> d)).
Proof.
  unfold update_body.
  step_call.
  step_with (eq_refl (@ret unit tt d)).
  step_with thrust_returns.
  step_with (global_ok _ _ d (in_globals _ _ Vector_bound)).
  step_with (getattr_ok _ _ _ d_weight). step_with (eq_refl (as_num (VNum weight) d)).
  step_with (vtruediv_ok (vadd thrust (mkVector 0 0 g)) weight d weight_nonzero).
  step_with (getattr_ok _ _ _ d_r_speed). step_with (eq_refl (as_list (VList [s0; s1; s2; s3]) d)).
  step_with (eq_refl (subscript [s0; s1; s2; s3] 0 d)).
  step_with (getattr_ok _ _ _ d_r_speed). step_with (eq_refl (as_list (VList [s0; s1; s2; s3]) d)).
  step_with (eq_refl (subscript [s0; s1; s2; s3] 3 d)).
  destruct (rotation_returns s0 s3) as [roll Hroll]. step_with Hroll.
  step_with (getattr_ok _ _ _ d_r_speed). step_with (eq_refl (as_list (VList [s0; s1; s2; s3]) d)).
  step_with (eq_refl (subscript [s0; s1; s2; s3] 1 d)).
  step_with (getattr_ok _ _ _ d_r_speed). step_with (eq_refl (as_list (VList [s0; s1; s2; s3]) d)).
  step_with (eq_refl (subscript [s0; s1; s2; s3] 2 d)).
  destruct (rotation_returns s1 s2) as [pitch Hpitch]. step_with Hpitch.
  destruct yaw_returns as [yaw Hyaw]. step_with Hyaw.
  step_with (getattr_ok _ _ _ d_pos). step_with (eq_refl (as_vec (VVec p) d)).
  step_with (getattr_ok _ _ _ d_velocity). step_with (eq_refl (as_vec (VVec v) d)).
  unfold setattr at 1. unfold bind at 1.
  assert (Hv : (<["pos" := VVec (vadd p (vscale v (default 1 (Some dt))))]> d)
               !! "velocity" = Some (VVec v)).
  { rewrite lookup_insert_ne by discriminate. exact d_velocity. }
  step_with (getattr_ok _ _ _ Hv).
  reflexivity.
Qed.

End UpdateBodyEuler.

Section UpdateBodyAtRest.

Variable G : list string.
Variable m_change_rotor_speed : list R -> M unit.
Variable m_calc_rotation : R -> R -> M R.
Variable m_calc_yaw : M R.

Variable d : obj.
Variables (weight s0 s1 s2 s3 : R).

Hypothesis Vector_bound : "Vector" ∈ G.
Hypothesis rotation_returns : forall a b, exists rate, m_calc_rotation a b d = (Ok rate, d).
Hypothesis yaw_returns : exists rate, m_calc_yaw d = (Ok rate, d).
Hypothesis d_weight : d !! "weight" = Some (VNum weight).
Hypothesis weight_nonzero : weight <> 0.
Hypothesis d_r_speed : d !! "r_speed" = Some (VList [s0; s1; s2; s3]).
Hypothesis d_pos : d !! "pos" = Some (VVec vzero).
Hypothesis d_velocity : d !! "velocity" = Some (VVec vzero).

(** With no thrust and no gravity the Euler step of the body leaves an
    instance at rest where it is. *)
Lemma update_body_at_rest dt :
  let d' := snd (update_body G m_change_rotor_speed (ret vzero) m_calc_rotation
                   m_calc_yaw (Some dt) (Some 0) None d) in
  d' !! "pos" = Some (VVec vzero) /\ d' !! "velocity" = Some (VVec vzero).
Proof.
  rewrite (update_body_euler G m_change_rotor_speed (ret vzero) m_calc_rotation
             m_calc_yaw d vzero vzero vzero weight s0 s1 s2 s3); auto.
  simpl. split.
  - rewrite lookup_insert_ne by discriminate. rewrite lookup_insert_eq.
    do 2 f_equal. unfold vadd, vscale, vzero; simpl. f_equal; ring.
  - rewrite lookup_insert_eq.
    do 2 f_equal. unfold vadd, vscale, spec_acceleration, vdiv, vzero; simpl.
    f_equal; field; exact weight_nonzero.
Qed.

End UpdateBodyAtRest.

(** The hypotheses of the two sections above are met, for instance, by
    methods that return constants on the instance [Drone()] builds. *)
Example update_body_euler_new_drone :
  update_body module_globals (change_rotor_speed module_globals)
    (ret (mkVector 0 0 100)) (fun _ _ => ret 0) (ret 0) (Some 2) (Some (-10)) None
    new_drone
  = (Ok tt,
     <["velocity" := VVec (vadd vzero
                             (vscale (spec_acceleration (mkVector 0 0 100) (-10) 50) 2))]>
       (<["pos" := VVec (vadd vzero (vscale vzero 2))]> new_drone)).
Proof.
  apply (update_body_euler module_globals _ _ _ _ new_drone (mkVector 0 0 100)
           vzero vzero 50 0 0 0 0).
  - set_unfold; tauto.
  - reflexivity.
  - intros a b. exists 0. reflexivity.
  - exists 0. reflexivity.
  - reflexivity.
  - lra.
  - reflexivity.
  - reflexivity.
  - reflexivity.
Qed.

(** The two lemmas on instances that carry the angles apply, for instance,
    to a level instance with one rotor turning. *)
Example calc_thrust_with_numpy_level :
  calc_thrust ("np" :: module_globals) (with_angles 0 0 0 spinning_drone)
  = (Ok (spec_thrust 0 0 0 (pysum (map (spec_rotor_force 15) [10; 0; 0; 0]))),
     with_angles 0 0 0 spinning_drone).
Proof. apply calc_thrust_with_numpy; reflexivity. Qed.

Example get_params_with_angles_level :
  get_params (with_angles 0 0 0 spinning_drone)
  = (Ok [VNum 0; VNum 0; VNum 0; VNum 0; VNum 0; VNum 0; VNum 0; VNum 0; VNum 0],
     with_angles 0 0 0 spinning_drone).
Proof.
  apply (get_params_with_angles _ vzero vzero (VNum 0) (VNum 0) (VNum 0)); reflexivity.
Qed.

(** In the module as it is, [calc_thrust] stops at the name [np]. *)
Lemma aborts_calc_thrust : aborts (calc_thrust module_globals).
Proof.
  unfold calc_thrust.
  apply aborts_bind_r; [auto with drone|]; intros _.
  apply aborts_bind_r; [auto with drone|]; intros _.
  apply aborts_bind_r; [auto with drone|]; intros v.
  apply aborts_bind_r; [auto with drone|]; intros l.
  apply aborts_bind_r; [apply pure_mapM; auto with drone|]; intros fs.
  apply aborts_bind_l. intros d. exists (NameError "np"). reflexivity.
Qed.

(** ** The claims *)

(** C1 (not met by the code): the claim has every call of [update] compute
    the acceleration as (thrust + (0, 0, g)) / mass and then advance [pos]
    by the old velocity times [dt] and [velocity] by the acceleration times
    [dt].  On [Drone()] with [dt = 1] and [g = -9.81] the call raises
    [NameError] for [np] inside [calc_thrust], before the Euler step: the
    velocity is still zero, where the claim has it gain
    acceleration times [dt], which is not zero. *)
Theorem update_stops_before_euler_step :
  update module_globals (Some 1) (Some (-9.81)) None new_drone
  = (Raise (NameError "np"), new_drone)
  /\ new_drone !! "velocity" = Some (VVec vzero)
  /\ vadd vzero (vscale (spec_acceleration (spec_thrust 0 0 0 0) (-9.81) 50) 1) <> vzero.
Proof.
  split; [reflexivity|]. split; [reflexivity|].
  intros H. apply (f_equal vz) in H. revert H.
  unfold vadd, vscale, spec_acceleration, vdiv, spec_thrust, rot_yaw, rot_pitch,
    rot_roll, vzero; simpl.
  rewrite cos_0, sin_0. lra.
Qed.



(** C3 (not met by the code): the claim has every tick obtain the thrust
    vector by rotating the total rotor force from the body Z axis by roll,
    pitch and yaw.  [calc_thrust] returns no vector: on every instance it
    raises at the name [np], which the module never binds, and where a
    namespace binds [np] it raises at [self.roll], which no method
    assigns. *)
Theorem calc_thrust_raises :
  calc_thrust module_globals new_drone = (Raise (NameError "np"), new_drone)
  /\ calc_thrust ("np" :: module_globals) new_drone
     = (Raise (AttributeError "roll"), new_drone)
  /\ forall d, raised (fst (calc_thrust module_globals d)).
Proof.
  split; [reflexivity|]. split; [reflexivity|].
  intros d. apply aborts_raised, aborts_calc_thrust.
Qed.

(** C4 (not met by the code): the claim has [update] complete without an
    exception on valid numeric input.  On [Drone()], [update(1, -9.81,
    [10, 10, 10, 10])] raises [TypeError] at the call of
    [change_rotor_speed], [update(1, -9.81)] raises [NameError] in
    [calc_thrust], and the later call [calc_yaw] raises [TypeError] at
    its list product. *)
Theorem update_raises_on_valid_input :
  fst (update module_globals (Some 1) (Some (-9.81)) (Some [10; 10; 10; 10]) new_drone)
  = Raise (TypeError "change_rotor_speed() takes fewer positional arguments than were given")
  /\ fst (update module_globals (Some 1) (Some (-9.81)) None new_drone)
     = Raise (NameError "np")
  /\ fst (calc_yaw module_globals new_drone)
     = Raise (TypeError "can't multiply sequence by non-int of type 'list'").
Proof. repeat split; reflexivity. Qed.

(** C5 (not met by the code): the claim has [change_rotor_speed] ignore a
    sequence whose length is not 4 without raising, and replace the stored
    speeds by a sequence of length 4.  The function is defined without
    [self]: called on an instance it raises [TypeError] whatever the
    length, and the stored speeds stay as they were; called through the
    class with four speeds it raises [NameError] at the name [self]. *)
Theorem change_rotor_speed_raises :
  change_rotor_speed module_globals [1; 2; 3] new_drone
  = (Raise (TypeError "change_rotor_speed() takes fewer positional arguments than were given"),
     new_drone)
  /\ change_rotor_speed module_globals [1; 2; 3; 4] new_drone
     = (Raise (TypeError "change_rotor_speed() takes fewer positional arguments than were given"),
        new_drone)
  /\ new_drone !! "r_speed" = Some (VList [0; 0; 0; 0])
  /\ change_rotor_speed_body module_globals [1; 2; 3; 4] new_drone
     = (Raise (NameError "self"), new_drone).
Proof. repeat split; reflexivity. Qed.

(** C6 (not met by the code): the claim has every call of [update] add the
    roll, pitch and yaw rates times [dt] to the stored orientation.  On an
    instance whose speeds are [10, 0, 0, 0] the roll rate [calc_rotation]
    computes is not zero, and [update] leaves [rotation] at zero, whether
    the speeds were stored beforehand or are passed to the call. *)
Theorem update_leaves_rotation :
  snd (update module_globals (Some 1) (Some (-9.81)) None spinning_drone) !! "rotation"
  = Some (VVec vzero)
  /\ snd (update module_globals (Some 1) (Some (-9.81)) (Some [10; 0; 0; 0]) new_drone)
       !! "rotation" = Some (VVec vzero)
  /\ exists rate,
       calc_rotation module_globals 10 0 spinning_drone = (Ok rate, spinning_drone)
       /\ rate * 1 <> 0.
Proof.
  split; [reflexivity|]. split; [reflexivity|].
  eexists. split.
  - apply (calc_rotation_ok module_globals 10 0 spinning_drone 15 10 1);
      [set_unfold; tauto|reflexivity|reflexivity|reflexivity|lra].
  - unfold spec_rotor_force. simpl. pose proof PI_RGT_0. lra.
Qed.



(** C8 (not met by the code): the claim has [get_params] return the nine
    scalars position, velocity, roll, pitch, yaw.  On the instance any
    call of the constructor builds, [get_params] raises [AttributeError]
    at [self.roll]: [__init__] stores the orientation as [rotation] and no
    method assigns [roll], [pitch] or [yaw]. *)
Theorem get_params_raises
  (rotor_radius weight size m_of_i_xx m_of_i_zz m_of_i_r : option R) :
  let d := snd (init module_globals rotor_radius weight size
                  m_of_i_xx m_of_i_zz m_of_i_r ∅) in
  Drone module_globals rotor_radius weight size m_of_i_xx m_of_i_zz m_of_i_r = Ok d
  /\ get_params d = (Raise (AttributeError "roll"), d).
Proof. split; reflexivity. Qed.

(** C9 as the specification states it fails: a model built with mass zero
    is built without an error. *)
Lemma Drone_accepts_zero_weight :
  0 <= 0 /\ ~ raised (Drone module_globals None (Some 0) None None None None).
Proof.
  split; [lra|]. intros [e He]. discriminate He.
Qed.

(** C9, amended: the constructor checks nothing; for every value of the six
    constants, zero and negative ones included, it raises no error and
    stores each constant as given (the default where none is given), with
    the kinematic state at zero. *)
Theorem Drone_stores_constants
  (rotor_radius weight size m_of_i_xx m_of_i_zz m_of_i_r : option R) :
  exists d,
    Drone module_globals rotor_radius weight size m_of_i_xx m_of_i_zz m_of_i_r = Ok d
    /\ d !! "r" = Some (VNum (default 15 rotor_radius))
    /\ d !! "weight" = Some (VNum (default 50 weight))
    /\ d !! "size" = Some (VNum (default 10 size))
    /\ d !! "m_of_i_xx" = Some (VNum (default 1 m_of_i_xx))
    /\ d !! "m_of_i_zz" = Some (VNum (default 1 m_of_i_zz))
    /\ d !! "m_of_i_r" = Some (VNum (default 1 m_of_i_r))
    /\ d !! "pos" = Some (VVec vzero)
    /\ d !! "velocity" = Some (VVec vzero)
    /\ d !! "rotation" = Some (VVec vzero)
    /\ d !! "r_speed" = Some (VList [0; 0; 0; 0]).
Proof. eexists. repeat split; reflexivity. Qed.

(** C10: in every namespace and on every instance, a call of [update]
    leaves the six constants as they were; it assigns nothing besides
    [pos], [velocity] and, through [change_rotor_speed], [r_speed]; and
    called without rotor speeds it assigns nothing besides [pos] and
    [velocity], so the stored speeds stay as they were. *)
Theorem update_preserves_constants
  (G : list string) (dt g : option R) (r_speed : option (list R)) (d : obj) :
  Forall (fun a => snd (update G dt g r_speed d) !! a = d !! a)
    ["r"; "weight"; "size"; "m_of_i_xx"; "m_of_i_zz"; "m_of_i_r"]
  /\ assigns_within ["r_speed"; "pos"; "velocity"] (update G dt g r_speed)
  /\ assigns_within ["pos"; "velocity"] (update G dt g None)
  /\ snd (update G dt g None d) !! "r_speed" = d !! "r_speed".
Proof.
  assert (Hframe : forall rs, assigns_within ["r_speed"; "pos"; "velocity"]
                                (update G dt g rs)).
  { intros rs. unfold update. apply update_body_frame; auto with drone.
    intros l. apply assigns_within_pure, aborts_pure, aborts_change_rotor_speed. }
  assert (Hnone : assigns_within ["pos"; "velocity"] (update G dt g None)).
  { unfold update. apply update_body_frame_no_speeds; auto with drone. }
  split; [|split; [apply Hframe|split; [exact Hnone|]]].
  - repeat constructor; apply Hframe; set_unfold; intuition discriminate.
  - apply Hnone. set_unfold; intuition discriminate.
Qed.

(** ** Further properties of the methods *)





(** X3: in every namespace and on every instance [calc_yaw] raises, and
    leaves the instance as it was: it has no path to its [return]. *)
Theorem calc_yaw_never_returns (G : list string) (d : obj) :
  exists e, calc_yaw G d = (Raise e, d).
Proof. apply aborts_calc_yaw. Qed.

(** X4: on an instance whose [r_speed] is a list of numbers and whose
    [m_of_i_r] is a number, the exception of [calc_yaw] is the [TypeError]
    of the list product at drone.py:159, whatever the speeds are. *)
Theorem calc_yaw_type_error (G : list string) (d : obj) (speeds : list R) (ir : R) :
  d !! "r_speed" = Some (VList speeds) ->
  d !! "m_of_i_r" = Some (VNum ir) ->
  calc_yaw G d
  = (Raise (TypeError "can't multiply sequence by non-int of type 'list'"), d).
Proof.
  intros Hs Hir. unfold calc_yaw.
  step_call.
  step_with (getattr_ok _ _ _ Hs). step_with (eq_refl (as_list (VList speeds) d)).
  assert (Hmom : forall s,
             (let* m := getattr "m_of_i_r" in let* m := as_num m in ret (m * s)) d
             = (Ok (ir * s), d)).
  { intros s. step_with (getattr_ok _ _ _ Hir). reflexivity. }
  step_with (mapM_ok (fun s => let* m := getattr "m_of_i_r" in
                               let* m := as_num m in ret (m * s))
               (fun s => ir * s) speeds d Hmom).
  reflexivity.
Qed.

Lemma calc_yaw_type_error_witness :
  spinning_drone !! "r_speed" = Some (VList [10; 0; 0; 0])
  /\ spinning_drone !! "m_of_i_r" = Some (VNum 1)
  /\ calc_yaw module_globals spinning_drone
     = (Raise (TypeError "can't multiply sequence by non-int of type 'list'"),
        spinning_drone).
Proof.
  split; [reflexivity|]. split; [reflexivity|].
  apply (calc_yaw_type_error module_globals spinning_drone [10; 0; 0; 0] 1); reflexivity.
Defined.

(** X5: in every namespace, on every instance and for every argument,
    [update] raises and leaves every attribute as it was; given rotor
    speeds, the exception is the [TypeError] of the call of
    [change_rotor_speed]. *)
Theorem update_always_raises
  (G : list string) (dt g : option R) (r_speed : option (list R)) (d : obj) :
  (exists e, update G dt g r_speed d = (Raise e, d))
  /\ forall l,
       update G dt g (Some l) d
       = (Raise (TypeError
                   "change_rotor_speed() takes fewer positional arguments than were given"),
          d).
Proof.
  split; [apply aborts_update|].
  intros l. unfold update, update_body.
  rewrite (bind_ok _ _ d tt d) by (destruct dt, g; reflexivity).
  reflexivity.
Qed.

(** X6: the five calculations and [get_params] read the instance and
    assign nothing, in every namespace, whether they return or raise. *)
Theorem readers_assign_nothing (G : list string) (d : obj) :
  (forall s dc ad, snd (calc_rotor_force G s dc ad d) = d)
  /\ snd (calc_thrust G d) = d
  /\ (forall a b, snd (calc_rotation G a b d) = d)
  /\ snd (calc_yaw G d) = d
  /\ snd (get_params d) = d.
Proof.
  repeat split; intros;
    first [ apply pure_calc_rotor_force | apply pure_calc_thrust
          | apply pure_calc_rotation | apply pure_calc_yaw | apply pure_get_params ].
Qed.



(** X8: called through the class, [Drone.change_rotor_speed(l)] returns
    without a word for every list whose length is not 4, and raises
    [NameError] at the name [self] for every list of length 4; in both cases
    the instance is as it was. *)
Theorem change_rotor_speed_through_class (l : list R) (d : obj) :
  change_rotor_speed_body module_globals l d
  = (if (length l =? 4)%nat then Raise (NameError "self") else Ok tt, d).
Proof.
  unfold change_rotor_speed_body.
  rewrite (bind_ok (global module_globals "len") _ d tt d) by reflexivity.
  destruct (length l =? 4)%nat; reflexivity.
Qed.

Lemma assigns_nothing_through_class l d :
  snd (change_rotor_speed_body module_globals l d) = d.
Proof.
  unfold change_rotor_speed_body.
  rewrite (bind_ok (global module_globals "len") _ d tt d) by reflexivity.
  destruct (length l =? 4)%nat; reflexivity.
Qed.

(** The calls of the module as it is leave the instance as it was. *)
Lemma run_call_state c d : run_call module_globals c d = d.
Proof.
  destruct c; cbn [run_call].
  - apply update_state.
  - apply aborts_pure, aborts_change_rotor_speed.
  - apply assigns_nothing_through_class.
  - apply pure_calc_thrust.
  - apply pure_calc_rotation.
  - apply pure_calc_yaw.
  - apply pure_calc_rotor_force.
  - apply pure_get_params.
Qed.

(** X9: whatever sequence of method calls follows the construction, the
    instance stays the one the constructor built: the rotor speeds stay
    the four zeros, position, velocity and rotation stay at zero, and the
    constants stay as given. *)
Theorem calls_keep_constructed_instance
  (rotor_radius weight size m_of_i_xx m_of_i_zz m_of_i_r : option R) (cs : list call) :
  let d := run_calls module_globals cs
             (snd (init module_globals rotor_radius weight size
                     m_of_i_xx m_of_i_zz m_of_i_r ∅)) in
  d = snd (init module_globals rotor_radius weight size m_of_i_xx m_of_i_zz m_of_i_r ∅)
  /\ d !! "r_speed" = Some (VList [0; 0; 0; 0])
  /\ d !! "pos" = Some (VVec vzero)
  /\ d !! "velocity" = Some (VVec vzero)
  /\ d !! "rotation" = Some (VVec vzero)
  /\ d !! "weight" = Some (VNum (default 50 weight)).
Proof.
  intros d.
  assert (Hd : d = snd (init module_globals rotor_radius weight size
                          m_of_i_xx m_of_i_zz m_of_i_r ∅)).
  { subst d. generalize (snd (init module_globals rotor_radius weight size
                                m_of_i_xx m_of_i_zz m_of_i_r ∅)).
    induction cs as [|c cs IH]; intros d0; simpl.
    - reflexivity.
    - rewrite run_call_state. apply IH. }
  split; [exact Hd|]. rewrite Hd. repeat split; reflexivity.
Qed.

(** X10: on an instance whose [pos] and [velocity] are vectors and that
    carries [roll], [pitch] and [yaw], [get_params] returns nine values:
    the components of the position, those of the velocity, then the three
    angles as stored; the instance is as it was. *)
Theorem get_params_returns_nine (d : obj) (p v : Vector) (roll pitch yaw : value) :
  d !! "pos" = Some (VVec p) ->
  d !! "velocity" = Some (VVec v) ->
  d !! "roll" = Some roll ->
  d !! "pitch" = Some pitch ->
  d !! "yaw" = Some yaw ->
  exists params,
    get_params d = (Ok params, d)
    /\ length params = 9%nat
    /\ params = [VNum (vx p); VNum (vy p); VNum (vz p);
                 VNum (vx v); VNum (vy v); VNum (vz v); roll; pitch; yaw].
Proof.
  intros Hp Hv Hroll Hpitch Hyaw. eexists. split.
  - apply (get_params_with_angles d p v roll pitch yaw); assumption.
  - split; reflexivity.
Qed.

Lemma get_params_returns_nine_witness :
  with_angles 1 2 3 new_drone !! "pos" = Some (VVec vzero)
  /\ with_angles 1 2 3 new_drone !! "velocity" = Some (VVec vzero)
  /\ with_angles 1 2 3 new_drone !! "roll" = Some (VNum 1)
  /\ with_angles 1 2 3 new_drone !! "pitch" = Some (VNum 2)
  /\ with_angles 1 2 3 new_drone !! "yaw" = Some (VNum 3)
  /\ exists params,
       get_params (with_angles 1 2 3 new_drone) = (Ok params, with_angles 1 2 3 new_drone)
       /\ length params = 9%nat
       /\ params = [VNum 0; VNum 0; VNum 0; VNum 0; VNum 0; VNum 0;
                    VNum 1; VNum 2; VNum 3].
Proof.
  do 5 (split; [reflexivity|]).
  apply (get_params_returns_nine (with_angles 1 2 3 new_drone) vzero vzero
           (VNum 1) (VNum 2) (VNum 3)); reflexivity.
Defined.








(** X13: where the methods [update] calls on [self] return (as those of a
    subclass that overrides them can), the body of [update] makes one
    explicit Euler step: [pos] advances by the velocity read before the
    step times [dt], [velocity] by (thrust + (0, 0, g)) / weight times
    [dt], and the rotation and the rotor speeds are as before the call. *)
Theorem update_body_euler_step
  (G : list string) (m_change_rotor_speed : list R -> M unit)
  (m_calc_thrust : M Vector) (m_calc_rotation : R -> R -> M R) (m_calc_yaw : M R)
  (d : obj) (thrust p v : Vector) (weight s0 s1 s2 s3 dt g : R) :
  "Vector" ∈ G ->
  m_calc_thrust d = (Ok thrust, d) ->
  (forall a b, exists rate, m_calc_rotation a b d = (Ok rate, d)) ->
  (exists rate, m_calc_yaw d = (Ok rate, d)) ->
  d !! "weight" = Some (VNum weight) ->
  weight <> 0 ->
  d !! "r_speed" = Some (VList [s0; s1; s2; s3]) ->
  d !! "pos" = Some (VVec p) ->
  d !! "velocity" = Some (VVec v) ->
  exists d',
    update_body G m_change_rotor_speed m_calc_thrust m_calc_rotation m_calc_yaw
      (Some dt) (Some g) None d = (Ok tt, d')
    /\ d' !! "pos" = Some (VVec (vadd p (vscale v dt)))
    /\ d' !! "velocity"
       = Some (VVec (vadd v (vscale (vdiv (vadd thrust (mkVector 0 0 g)) weight) dt)))
    /\ d' !! "rotation" = d !! "rotation"
    /\ d' !! "r_speed" = d !! "r_speed".
Proof.
  intros HV Hth Hrot Hyaw Hw Hnz Hs Hp Hv. eexists. split.
  - apply (update_body_euler G m_change_rotor_speed m_calc_thrust m_calc_rotation
             m_calc_yaw d thrust p v weight s0 s1 s2 s3); assumption.
  - split; [|split; [|split]].
    + rewrite lookup_insert_ne by discriminate. apply lookup_insert_eq.
    + apply lookup_insert_eq.
    + rewrite !lookup_insert_ne by discriminate. reflexivity.
    + rewrite !lookup_insert_ne by discriminate. reflexivity.
Qed.

Lemma update_body_euler_step_witness :
  "Vector" ∈ module_globals
  /\ ret (mkVector 0 0 100) new_drone = (Ok (mkVector 0 0 100), new_drone)
  /\ (forall a b : R, exists rate, (fun _ _ => ret 0) a b new_drone = (Ok rate, new_drone))
  /\ (exists rate, ret 0 new_drone = (Ok rate, new_drone))
  /\ new_drone !! "weight" = Some (VNum 50)
  /\ 50 <> 0
  /\ new_drone !! "r_speed" = Some (VList [0; 0; 0; 0])
  /\ new_drone !! "pos" = Some (VVec vzero)
  /\ new_drone !! "velocity" = Some (VVec vzero)
  /\ exists d',
       update_body module_globals (change_rotor_speed module_globals)
         (ret (mkVector 0 0 100)) (fun _ _ => ret 0) (ret 0) (Some 2) (Some (-10)) None
         new_drone = (Ok tt, d')
       /\ d' !! "pos" = Some (VVec (vadd vzero (vscale vzero 2)))
       /\ d' !! "velocity"
          = Some (VVec (vadd vzero
                          (vscale (vdiv (vadd (mkVector 0 0 100) (mkVector 0 0 (-10))) 50)
                             2)))
       /\ d' !! "rotation" = new_drone !! "rotation"
       /\ d' !! "r_speed" = new_drone !! "r_speed".
Proof.
  assert (HV : "Vector" ∈ module_globals) by (set_unfold; tauto).
  assert (Hrot : forall a b : R,
             exists rate, (fun _ _ : R => @ret R 0) a b new_drone = (Ok rate, new_drone))
    by (intros a b; exists 0; reflexivity).
  assert (Hyaw : exists rate, @ret R 0 new_drone = (Ok rate, new_drone))
    by (exists 0; reflexivity).
  assert (Hnz : 50 <> 0) by lra.
  split; [exact HV|]. split; [reflexivity|]. split; [exact Hrot|]. split; [exact Hyaw|].
  split; [reflexivity|]. split; [exact Hnz|]. do 3 (split; [reflexivity|]).
  exact (update_body_euler_step module_globals (change_rotor_speed module_globals)
           (ret (mkVector 0 0 100)) (fun _ _ => ret 0) (ret 0) new_drone
           (mkVector 0 0 100) vzero vzero 50 0 0 0 0 2 (-10)
           HV eq_refl Hrot Hyaw eq_refl Hnz eq_refl eq_refl eq_refl).
Defined.

(** X14: the constructor creates exactly eleven attributes, whatever its
    arguments; [roll], [pitch] and [yaw], which [calc_thrust] and
    [get_params] read, are not among them. *)
Theorem constructed_attributes
  (rotor_radius weight size m_of_i_xx m_of_i_zz m_of_i_r : option R) :
  let d := snd (init module_globals rotor_radius weight size
                  m_of_i_xx m_of_i_zz m_of_i_r ∅) in
  dom d = list_to_set ["rotation"; "rotation_velocity"; "pos"; "velocity"; "r_speed";
                       "r"; "weight"; "size"; "m_of_i_xx"; "m_of_i_zz"; "m_of_i_r"]
  /\ d !! "roll" = None /\ d !! "pitch" = None /\ d !! "yaw" = None.
Proof.
  intros d. split; [|repeat split; reflexivity].
  subst d. unfold init, bind, setattr; simpl.
  rewrite !dom_insert_L, dom_empty_L. set_solver.
Qed.
